(** * pdc_scraper.py: a shallow embedding of the PDC daily monitor

    The script collects opportunities from five sources into the global
    list [found_opps], then deduplicates them by URL and builds a Slack
    payload in [send_slack_alert].

    Modelling choices:
    - [found_opps] is only ever appended to by the source functions and
      read once, at the end, by [send_slack_alert]; it is modelled by a
      writer monad with exceptions ([py]): a computation yields an optional
      result ([None] = a Python exception was raised) together with the
      opportunities it appended before finishing or raising.  Appends made
      before an exception stay in the list, as they do in Python.
    - Network and parsing are inputs: a fetched feed is [option (list entry)]
      ([None] = the fetch or the parse raised), an attribute of a feed entry
      or a key of a Reddit post is an [option] ([None] = AttributeError /
      KeyError on access).
    - [datetime.strptime(.., "%a, %d %b %Y %H:%M:%S %z")] is a parameter
      [strptime] of the sources that use it: a string to an instant in
      microseconds since the epoch, [None] when it raises.
    - Times are integers in microseconds (the resolution of [datetime]);
      [datetime.now] is the instant [now] of the run.
    - Strings are Rocq strings; [str.lower] is modelled on ASCII letters.
    - Console output of the sources ("Checking ...", error messages) is not
      modelled; the outputs of [send_slack_alert] are. *)

From Stdlib Require Import String Ascii List Bool ZArith Lia.
Import ListNotations.
Open Scope string_scope.

(** ** Data model *)

(** The ["type"] field of an opportunity: the script only ever writes these
    four strings. *)
Inductive opp_type := industry | partner | wealth | pain.

Definition opp_type_eqb (a b : opp_type) : bool :=
  match a, b with
  | industry, industry | partner, partner | wealth, wealth | pain, pain => true
  | _, _ => false
  end.

(** One element of [found_opps]: a dict with five keys. *)
Record opp := mk_opp {
  source : string;
  title : string;
  url : string;
  summary : string;
  type : opp_type
}.

(** A feedparser entry: the attributes the script reads. *)
Record entry := mk_entry {
  en_title : option string;
  en_link : option string;
  en_published : option string
}.

(** A Reddit post (the ['data'] object of a child of the listing). *)
Record reddit_post := mk_post {
  rp_title : option string;
  rp_selftext : option string;
  rp_permalink : option string;
  rp_created_utc : option Z
}.

(** ** Writer monad with exceptions *)

Definition py (A : Type) : Type := (option A * list opp)%type.

Definition ret {A} (a : A) : py A := (Some a, []).
Definition raise {A} : py A := (None, []).

Definition bind {A B} (m : py A) (k : A -> py B) : py B :=
  match m with
  | (Some a, w) => let (r, w') := k a in (r, (w ++ w')%list)
  | (None, w) => (None, w)
  end.

Notation "x <- m ;; k" := (bind m (fun x => k))
  (at level 61, m at next level, right associativity).
Notation "m ;;; k" := (bind m (fun _ => k))
  (at level 61, right associativity).

(** [found_opps.append(o)] *)
Definition append (o : opp) : py unit := (Some tt, [o]).

(** Attribute or key access that raises when missing. *)
Definition attr {A} (o : option A) : py A :=
  match o with Some a => ret a | None => raise end.

(** [try: m except Exception as e: print(...)] *)
Definition try_except (m : py unit) : py unit := (Some tt, snd m).

(** [for x in xs: f(x)] *)
Fixpoint for_ {X} (xs : list X) (f : X -> py unit) : py unit :=
  match xs with
  | [] => ret tt
  | x :: xs' => f x ;;; for_ xs' f
  end.

(** The opportunities appended by a computation. *)
Definition written {A} (m : py A) : list opp := snd m.

(** ** Strings *)

Definition lower_ascii (c : ascii) : ascii :=
  let n := nat_of_ascii c in
  if ((65 <=? n) && (n <=? 90))%nat then ascii_of_nat (n + 32)%nat else c.

(** [str.lower], on ASCII letters only: Python also lowers non-ASCII
    letters (e.g. the Kelvin sign to "k"), which this model leaves as they are. *)
Fixpoint lower (s : string) : string :=
  match s with
  | EmptyString => EmptyString
  | String c s' => String (lower_ascii c) (lower s')
  end.

Fixpoint is_prefix (p s : string) : bool :=
  match p, s with
  | EmptyString, _ => true
  | String a p', String b s' => Ascii.eqb a b && is_prefix p' s'
  | String _ _, EmptyString => false
  end.

(** Python's substring test [needle in hay]. *)
Fixpoint contains (needle hay : string) : bool :=
  is_prefix needle hay ||
  match hay with
  | EmptyString => false
  | String _ hay' => contains needle hay'
  end.

(** ** Configuration *)

Definition COACHING_KEYWORDS : list string :=
  ["Player Development"; "Mental Performance"; "Life Skills";
   "Head Coach"; "Assistant Coach"; "Director of Operations";
   "Basketball"; "Athlete Development"].

Definition PAIN_KEYWORDS : list string :=
  ["quit"; "confidence"; "anxiety"; "scared"; "nervous"; "toxic coach";
   "unfair"; "politics"; "bench"; "playing time"; "struggling"; "lost passion"].

Definition WEALTH_KEYWORDS : list string :=
  ["prep school"; "tuition"; "private school"; "boarding school";
   "consultant"; "recruiting service"; "showcase"; "ivy league";
   "financial aid"; "investment"; "is it worth it"; "advisor"].

(** ** Helpers *)

(** [is_relevant(text, keyword_list)] *)
Definition is_relevant (text : string) (keyword_list : list string) : bool :=
  match text with
  | EmptyString => false
  | _ => let text := lower text in
         existsb (fun keyword => contains (lower keyword) text) keyword_list
  end.

(** ** Sources *)

(** [timedelta(hours=24)] in microseconds. *)
Definition hoopdirt_window : Z := (24 * 3600 * 1000000)%Z.

Section Sources.

(** [datetime.strptime(s, "%a, %d %b %Y %H:%M:%S %z")]: the instant, or
    [None] when it raises [ValueError]. *)
Variable strptime : string -> option Z.

(** The body of the loop of [get_hoopdirt_news()]. *)
Definition hoopdirt_entry (now : Z) (e : entry) : py unit :=
  s <- attr (en_published e) ;;
  published <- attr (strptime s) ;;
  if (now - published >? hoopdirt_window)%Z then ret tt
  else
    t <- attr (en_title e) ;;
    l <- attr (en_link e) ;;
    append (mk_opp "HoopDirt" t l "🏀 Coaching Move / Industry Rumor" industry).

(** [get_hoopdirt_news()]; [feed] is [feedparser.parse(..).entries]. *)
Definition get_hoopdirt_news (now : Z) (feed : option (list entry)) : py unit :=
  try_except (
    entries <- attr feed ;;
    for_ entries (hoopdirt_entry now)).

End Sources.

Definition job_query : string :=
  "Basketball Coach (Hiring OR Wanted OR Vacancy OR 'Player Development')".

Definition partner_query : string :=
  "(Wealth Management OR Financial Advisor) AND (NIL OR Student Athletes)".

Definition queries : list (string * string * opp_type) :=
  [(job_query, "📰 Job Vacancy", industry);
   (partner_query, "🤝 Potential Wealth Partner", partner)].

(** [get_google_alerts()]; [fetch q] is the parsed Google News feed of the
    query [q]. *)
Definition get_google_alerts (fetch : string -> option (list entry)) : py unit :=
  for_ queries (fun '(q, summary, type_) =>
    try_except (
      entries <- attr (fetch q) ;;
      for_ (firstn 5 entries) (fun e =>
        t <- attr (en_title e) ;;
        l <- attr (en_link e) ;;
        append (mk_opp "Google News" t l summary type_)))).

(** [get_ncaa_market()] *)
Definition get_ncaa_market (feed : option (list entry)) : py unit :=
  try_except (
    entries <- attr feed ;;
    for_ entries (fun e =>
      t0 <- attr (en_title e) ;;
      if contains "basketball" (lower t0) || contains "development" (lower t0)
      then
        t <- attr (en_title e) ;;
        l <- attr (en_link e) ;;
        append (mk_opp "NCAA Market" t l "🎓 Collegiate Role" industry)
      else ret tt)).

(** [get_college_confidential()] *)
Definition get_college_confidential (feed : option (list entry)) : py unit :=
  try_except (
    entries <- attr feed ;;
    for_ (firstn 10 entries) (fun e =>
      let category := "💰 High-Net-Worth Discussion" in
      t <- attr (en_title e) ;;
      l <- attr (en_link e) ;;
      append (mk_opp "College Confidential" t l category wealth))).

Definition subreddits : list string :=
  ["BasketballTips"; "YouthSports"; "Parenting"; "basketballcoach"].

Definition parent_markers : list string :=
  ["son"; "daughter"; "kid"; "child"; "12yo"; "13yo"; "14yo"; "hs"; "my boy"].

(** [full_text = f"{p['title']} {p.get('selftext', '')}".lower()] *)
Definition full_text_of (t : string) (p : reddit_post) : string :=
  lower (t ++ " " ++ match rp_selftext p with Some s => s | None => "" end).

(** The body of the inner loop of [get_reddit_monitor]. *)
Definition reddit_post_step (sub : string) (p : reddit_post) : py unit :=
  t0 <- attr (rp_title p) ;;
  let full_text := full_text_of t0 p in
  let is_parent := existsb (fun k => contains k full_text) parent_markers in
  if is_parent then
    if is_relevant full_text WEALTH_KEYWORDS then
      t <- attr (rp_title p) ;;
      pl <- attr (rp_permalink p) ;;
      append (mk_opp ("Reddit (r/" ++ sub ++ ")") t ("https://www.reddit.com" ++ pl)
                     "💰 Investment/Advisory Question" wealth)
    else if is_relevant full_text PAIN_KEYWORDS then
      t <- attr (rp_title p) ;;
      pl <- attr (rp_permalink p) ;;
      append (mk_opp ("Reddit (r/" ++ sub ++ ")") t ("https://www.reddit.com" ++ pl)
                     "❤️ Parent Pain Point (Confidence/Politics)" pain)
    else ret tt
  else ret tt.

(** [get_reddit_monitor()]; [fetch sub] is [data['data']['children']] of the
    subreddit's listing ([None] when [requests.get], [r.json()] or the key
    accesses raise), each child already projected to its ['data']. *)
Definition get_reddit_monitor (fetch : string -> option (list reddit_post)) : py unit :=
  for_ subreddits (fun sub =>
    try_except (
      posts <- attr (fetch sub) ;;
      for_ posts (reddit_post_step sub))).

(** ** The run *)

(** What the outside world answers during one run. *)
Record world := mk_world {
  w_now : Z;
  w_hoopdirt : option (list entry);
  w_google : string -> option (list entry);
  w_ncaa : option (list entry);
  w_cc : option (list entry);
  w_reddit : string -> option (list reddit_post)
}.

(** The five source calls of [__main__]; the result is [found_opps]. *)
Definition collect (strptime : string -> option Z) (w : world) : list opp :=
  written (
    get_hoopdirt_news strptime (w_now w) (w_hoopdirt w) ;;;
    get_google_alerts (w_google w) ;;;
    get_ncaa_market (w_ncaa w) ;;;
    get_college_confidential (w_cc w) ;;;
    get_reddit_monitor (w_reddit w)).

(** ** send_slack_alert *)

(** A Python dict keyed by URL, as an insertion-ordered association list:
    assigning an existing key replaces its value in place. *)
Fixpoint dict_set (k : string) (v : opp) (d : list (string * opp))
  : list (string * opp) :=
  match d with
  | [] => [(k, v)]
  | (k', v') :: d' =>
      if String.eqb k k' then (k', v) :: d' else (k', v') :: dict_set k v d'
  end.

(** [{opp['url']: opp for opp in found_opps}] *)
Definition url_dict (found_opps : list opp) : list (string * opp) :=
  fold_left (fun d o => dict_set (url o) o d) found_opps [].

(** [unique_opps = {...}.values()] *)
Definition unique_opps (found_opps : list opp) : list opp :=
  map snd (url_dict found_opps).

(** Slack blocks: [HeaderBlock n] has the text
    ["🚀 PDC Daily Monitor: {n} Leads"]; [SectionBlock emoji o] has the text
    [f"{emoji} *{o.source}*: <{o.url}|{o.title}>\n_{o.summary}_"]. *)
Inductive block :=
| HeaderBlock (leads : nat)
| Divider
| SectionBlock (emoji : string) (o : opp).

(** What [send_slack_alert] does: console lines and the webhook POST. *)
Inductive effect :=
| Print (s : string)
| PrintFound (n : nat)                 (* print(f"Found {n} opportunities.") *)
| PrintJson (payload : list block)     (* print(json.dumps(payload, ...)) *)
| Post (hook : string) (payload : list block).

Definition emoji_of (t : opp_type) : string :=
  if opp_type_eqb t wealth then "💰"
  else if opp_type_eqb t pain then "❤️"
  else if opp_type_eqb t partner then "🤝"
  else if opp_type_eqb t industry then "📰"
  else "🏀".

Definition section_of (o : opp) : block := SectionBlock (emoji_of (type o)) o.

Definition heartbeat : string := "No opportunities found today.".

(** [send_slack_alert()]; [hook] is [SLACK_WEBHOOK_URL], i.e.
    [os.environ.get('SLACK_WEBHOOK_URL')]: [None] when unset. *)
Definition send_slack_alert (hook : option string) (found_opps : list opp)
  : list effect :=
  match found_opps with
  | [] => [Print heartbeat]
  | _ =>
      let u := unique_opps found_opps in
      let blocks := ([HeaderBlock (length u); Divider] ++ map section_of (firstn 15 u))%list in
      PrintFound (length u) ::
      (* [if SLACK_WEBHOOK_URL:] is false for None and for "" *)
      match hook with
      | Some (String _ _ as h) => [Post h blocks]
      | _ => [Print "No Webhook set. JSON Output:"; PrintJson blocks]
      end
  end.

(** [__main__] *)
Definition main (strptime : string -> option Z) (w : world) (hook : option string)
  : list effect :=
  send_slack_alert hook (collect strptime w).

(** The opportunities shown by a payload, in order. *)
Fixpoint payload_opps (p : list block) : list opp :=
  match p with
  | [] => []
  | SectionBlock _ o :: p' => o :: payload_opps p'
  | _ :: p' => payload_opps p'
  end.

(** The payloads that leave the script (posted or printed). *)
Definition payloads (es : list effect) : list (list block) :=
  flat_map (fun e => match e with
                     | PrintJson p => [p]
                     | Post _ p => [p]
                     | _ => []
                     end) es.

(** ** Reading the URL dict *)

Fixpoint dict_lookup (k : string) (d : list (string * opp)) : option opp :=
  match d with
  | [] => None
  | (k', v) :: d' => if String.eqb k k' then Some v else dict_lookup k d'
  end.

Definition mem (u : string) (ks : list string) : bool := existsb (String.eqb u) ks.

(** The distinct URLs of a list, in the order of their first occurrence. *)
Fixpoint first_urls (l : list opp) : list string :=
  match l with
  | [] => []
  | o :: l' => url o :: filter (fun u => negb (String.eqb u (url o))) (first_urls l')
  end.

(** The last opportunity of a list with URL [u]. *)
Fixpoint last_with (u : string) (l : list opp) : option opp :=
  match l with
  | [] => None
  | o :: l' =>
      match last_with u l' with
      | Some x => Some x
      | None => if String.eqb (url o) u then Some o else None
      end
  end.

(** ** The ranking the spec describes (spec §4.6), for comparison *)

(** Spec: lead/pain and wealth rank above partner, partner above industry. *)
Definition spec_priority (t : opp_type) : nat :=
  match t with
  | pain | wealth => 0
  | partner => 1
  | industry => 2
  end.

Fixpoint spec_insert (o : opp) (l : list opp) : list opp :=
  match l with
  | [] => [o]
  | x :: l' =>
      if (spec_priority (type o) <=? spec_priority (type x))%nat then o :: l
      else x :: spec_insert o l'
  end.

(** Stable sort by [spec_priority]: an element is inserted in front of the
    first one of equal or lower priority, so equal ranks keep their
    discovery order. *)
Definition spec_ranked (l : list opp) : list opp :=
  fold_right spec_insert [] l.

(** Spec §4.4: the first rule, in order, whose keyword set matches. *)
Fixpoint spec_first_match (rules : list (list string * string * opp_type))
  (text : string) : option (string * opp_type) :=
  match rules with
  | [] => None
  | (kws, label, ty) :: rules' =>
      if is_relevant text kws then Some (label, ty) else spec_first_match rules' text
  end.

(** The rules of the Reddit source, in the order the code tests them. *)
Definition reddit_rules : list (list string * string * opp_type) :=
  [(WEALTH_KEYWORDS, "💰 Investment/Advisory Question", wealth);
   (PAIN_KEYWORDS, "❤️ Parent Pain Point (Confidence/Politics)", pain)].

(** ** Dates *)

(** A HoopDirt entry whose ["published"] is absent or does not parse. *)
Definition hd_date_fails (strptime : string -> option Z) (e : entry) : bool :=
  match en_published e with
  | None => true
  | Some s => match strptime s with None => true | Some _ => false end
  end.

(** The same entry or post with another publish date. *)
Definition restamp (d : option string) (e : entry) : entry :=
  mk_entry (en_title e) (en_link e) d.

Definition restamp_post (c : option Z) (p : reddit_post) : reddit_post :=
  mk_post (rp_title p) (rp_selftext p) (rp_permalink p) c.

(** ** Sample inputs *)

Definition hd_date : string := "Mon, 05 Oct 2026 10:00:00 +0000".

(** A [strptime] that knows one date string. *)
Definition sample_strptime (s : string) : option Z :=
  if String.eqb s hd_date then Some 1791194400000000%Z else None.

Definition web_entry (t u : string) : entry := mk_entry (Some t) (Some u) None.

(** [n] entries titled [t] with the URLs ["https://x/<c>"], [c] running
    over the letters from [ascii_of_nat first]. *)
Definition lettered (t : string) (first n : nat) : list entry :=
  map (fun k => web_entry t ("https://x/" ++ String (ascii_of_nat k) EmptyString))
      (seq first n).

Definition google_answer (job partner : list entry) (q : string) : option (list entry) :=
  if String.eqb q job_query then Some job
  else if String.eqb q partner_query then Some partner else None.

(** Every source fails. *)
Definition quiet_world : world :=
  mk_world 0 None (fun _ => None) None None (fun _ => None).

(** A Google job post and a College Confidential thread with one URL. *)
Definition dup_world : world :=
  mk_world 0 None
    (google_answer [web_entry "Basketball Coach Vacancy" "https://x/1"] [])
    None (Some [web_entry "Prep school worth it?" "https://x/1"]) (fun _ => None).

(** A job, a partner and a wealth item, discovered in that order. *)
Definition order_world : world :=
  mk_world 0 None
    (google_answer [web_entry "Basketball Coach Vacancy" "https://x/1"]
                   [web_entry "Advisors and NIL" "https://x/2"])
    None (Some [web_entry "Prep school worth it?" "https://x/3"]) (fun _ => None).

(** Seventeen distinct items; the wealth item comes last. *)
Definition big_world : world :=
  mk_world 0 None
    (google_answer (lettered "Coach vacancy" 65 5) (lettered "Advisors and NIL" 70 5))
    (Some (lettered "Basketball assistant" 75 6))
    (Some [web_entry "Prep school worth it?" "https://x/z"]) (fun _ => None).

(** A HoopDirt feed: one fresh entry, then one without a date. *)
Definition hd_feed_fresh_then_undated : list entry :=
  [mk_entry (Some "Coach hired") (Some "https://x/1") (Some hd_date);
   mk_entry (Some "Coach fired") (Some "https://x/2") None].

(** A HoopDirt feed: one entry without a date, then a fresh one. *)
Definition hd_feed_undated_then_fresh : list entry :=
  [mk_entry (Some "Coach fired") (Some "https://x/2") None;
   mk_entry (Some "Coach hired") (Some "https://x/1") (Some hd_date)].

(** An entry with no attributes (the default of [hd] and [last]). *)
Definition hd_empty_entry : entry := mk_entry None None None.

(** A parent's post with both wealth and pain keywords. *)
Definition both_post : reddit_post :=
  mk_post (Some "My son lost his confidence")
          (Some "Is prep school worth it?") (Some "/r/YouthSports/1") None.

(** One hour after [hd_date]. *)
Definition hd_now : Z := (1791194400000000 + 3600 * 1000000)%Z.

(** ** Dict lemmas *)

Lemma dict_set_lookup k v d k' :
  dict_lookup k' (dict_set k v d) =
  if String.eqb k' k then Some v else dict_lookup k' d.
Proof.
  induction d as [|[k0 v0] d IH]; simpl.
  - destruct (String.eqb k' k); reflexivity.
  - destruct (String.eqb_spec k k0) as [->|Hne]; simpl.
    + destruct (String.eqb k' k0); reflexivity.
    + rewrite IH.
      destruct (String.eqb_spec k' k0), (String.eqb_spec k' k); congruence.
Qed.

Lemma dict_set_keys k v d :
  map fst (dict_set k v d) =
  if mem k (map fst d) then map fst d else (map fst d ++ [k])%list.
Proof.
  unfold mem. induction d as [|[k0 v0] d IH]; simpl; [reflexivity|].
  destruct (String.eqb_spec k k0) as [->|Hne]; simpl; [reflexivity|].
  rewrite IH. destruct (existsb _ _); reflexivity.
Qed.

Lemma dict_set_urls k v d :
  url v = k ->
  Forall (fun kv => url (snd kv) = fst kv) d ->
  Forall (fun kv => url (snd kv) = fst kv) (dict_set k v d).
Proof.
  intros Hv Hd. induction Hd as [|[k0 v0] d H0 Hd IH]; simpl.
  - constructor; [exact Hv | constructor].
  - destruct (String.eqb_spec k k0) as [->|Hne]; constructor; simpl; auto.
Qed.

Lemma filter_filter_and {A} (f g : A -> bool) l :
  filter f (filter g l) = filter (fun x => g x && f x) l.
Proof.
  induction l as [|x l IH]; simpl; [reflexivity|].
  destruct (g x); simpl; [destruct (f x); simpl|]; rewrite IH; reflexivity.
Qed.

Lemma url_dict_fold_lookup l d k :
  dict_lookup k (fold_left (fun d o => dict_set (url o) o d) l d) =
  match last_with k l with Some o => Some o | None => dict_lookup k d end.
Proof.
  revert d. induction l as [|o l IH]; intros d; simpl; [reflexivity|].
  rewrite IH, dict_set_lookup.
  destruct (last_with k l); [reflexivity|].
  rewrite String.eqb_sym. destruct (String.eqb (url o) k); reflexivity.
Qed.

Lemma url_dict_fold_keys l d :
  map fst (fold_left (fun d o => dict_set (url o) o d) l d) =
  (map fst d ++ filter (fun u => negb (mem u (map fst d))) (first_urls l))%list.
Proof.
  revert d. induction l as [|o l IH]; intros d; simpl; [now rewrite app_nil_r|].
  rewrite IH, dict_set_keys.
  destruct (mem (url o) (map fst d)) eqn:Hm; simpl; rewrite ?Hm; simpl.
  - f_equal. rewrite filter_filter_and.
    apply filter_ext. intros u.
    destruct (String.eqb_spec u (url o)) as [->|]; simpl.
    + rewrite Hm. reflexivity.
    + reflexivity.
  - rewrite <- app_assoc. simpl. f_equal. f_equal.
    rewrite filter_filter_and. apply filter_ext. intros u.
    unfold mem. rewrite existsb_app. simpl. rewrite orb_false_r.
    destruct (existsb _ _), (String.eqb u (url o)); reflexivity.
Qed.

Lemma first_urls_NoDup l : NoDup (first_urls l).
Proof.
  induction l as [|o l IH]; simpl; constructor.
  - intros Hin. apply filter_In in Hin as [_ Hin].
    rewrite String.eqb_refl in Hin. discriminate.
  - apply NoDup_filter, IH.
Qed.

Lemma url_dict_keys l : map fst (url_dict l) = first_urls l.
Proof.
  unfold url_dict. rewrite url_dict_fold_keys. simpl. apply filter_true.
Qed.

Lemma url_dict_lookup l k : dict_lookup k (url_dict l) = last_with k l.
Proof.
  unfold url_dict. rewrite url_dict_fold_lookup. destruct (last_with k l); reflexivity.
Qed.

Lemma url_dict_urls l : Forall (fun kv => url (snd kv) = fst kv) (url_dict l).
Proof.
  unfold url_dict. generalize (@Forall_nil _ (fun kv : string * opp => url (snd kv) = fst kv)).
  generalize (@nil (string * opp)). induction l as [|o l IH]; intros d Hd; simpl; auto.
  apply IH, dict_set_urls; auto.
Qed.

Lemma values_by_lookup d :
  NoDup (map fst d) ->
  map Some (map snd d) = map (fun k => dict_lookup k d) (map fst d).
Proof.
  induction d as [|[k v] d IH]; simpl; intros Hnd; [reflexivity|].
  inversion Hnd as [|? ? Hnin Hnd']; subst.
  rewrite String.eqb_refl. f_equal. rewrite IH by exact Hnd'.
  apply map_ext_in. intros k' Hk'.
  destruct (String.eqb_spec k' k) as [->|]; [contradiction|reflexivity].
Qed.

Lemma unique_opps_urls l : map url (unique_opps l) = first_urls l.
Proof.
  unfold unique_opps. rewrite <- url_dict_keys.
  induction (url_dict_urls l) as [|[k v] d Hkv _ IH]; simpl in *; congruence.
Qed.

(** ** Monad lemmas *)


Lemma written_bind_none {A B} (m : py A) (k : A -> py B) :
  fst m = None -> bind m k = (None, written m).
Proof. destruct m as [[a'|] w]; simpl; intros H; [discriminate|reflexivity]. Qed.

Lemma written_bind {A B} (m : py A) (k : A -> py B) :
  written (bind m k) =
  match fst m with
  | Some a => (written m ++ written (k a))%list
  | None => written m
  end.
Proof. destruct m as [[a|] w]; simpl; [destruct (k a)|]; reflexivity. Qed.

Lemma written_try_attr_some {A} (v : A) (k : A -> py unit) :
  written (try_except (x <- attr (Some v) ;; k x)) = written (k v).
Proof. unfold try_except, written. simpl. destruct (k v); reflexivity. Qed.

(** A raising iteration ends the loop: the iterations after it never run. *)
Lemma for_raise_stops {X} (xs ys : list X) x f :
  fst (f x) = None ->
  for_ (xs ++ x :: ys)%list f = for_ (xs ++ [x])%list f.
Proof.
  intros Hx. induction xs as [|x0 xs IH]; simpl.
  - destruct (f x) as [[[]|] w] eqn:E; simpl in Hx; [discriminate|reflexivity].
  - rewrite IH. reflexivity.
Qed.

(** An iteration that raises before writing adds nothing to the loop's
    output. *)
Lemma for_raise_silent {X} (xs : list X) x f :
  f x = (None, []) ->
  written (for_ (xs ++ [x])%list f) = written (for_ xs f).
Proof.
  intros Hx. induction xs as [|x0 xs IH]; simpl.
  - rewrite Hx. reflexivity.
  - destruct (f x0) as [[[]|] w]; simpl; [|reflexivity].
    destruct (for_ (xs ++ [x])%list f) as [r1 w1].
    destruct (for_ xs f) as [r2 w2]. simpl in *. congruence.
Qed.

Lemma for_ext {X} (xs : list X) f g :
  (forall x, f x = g x) -> for_ xs f = for_ xs g.
Proof.
  intros H. induction xs as [|x xs IH]; simpl; [reflexivity|].
  rewrite H, IH. reflexivity.
Qed.

Lemma for_map {X Y} (h : X -> Y) (xs : list X) f :
  for_ (map h xs) f = for_ xs (fun x => f (h x)).
Proof.
  induction xs as [|x xs IH]; simpl; [reflexivity|]. rewrite IH. reflexivity.
Qed.

Lemma payload_opps_sections n l :
  payload_opps ([HeaderBlock n; Divider] ++ map section_of l)%list = l.
Proof. simpl. induction l as [|o l IH]; simpl; congruence. Qed.

Lemma payloads_send hook found p :
  In p (payloads (send_slack_alert hook found)) ->
  found <> [] /\
  p = ([HeaderBlock (length (unique_opps found)); Divider] ++
       map section_of (firstn 15 (unique_opps found)))%list.
Proof.
  unfold send_slack_alert. destruct found as [|o l]; simpl; [tauto|].
  destruct hook as [[|c h]|]; simpl; intros H; split; try discriminate;
    intuition congruence.
Qed.

Lemma firstn_NoDup {A} n (l : list A) : NoDup l -> NoDup (firstn n l).
Proof.
  intros H. rewrite <- (firstn_skipn n l) in H. eapply NoDup_app_remove_r; exact H.
Qed.

(** ** C1: which duplicate survives *)

(** C1 (as stated): the first opportunity with a URL is not the one kept.
    In [dup_world] the Google job post and then the College Confidential
    thread share ["https://x/1"]; the summary shows the later thread. *)
Lemma dedup_keeps_first_counterexample :
  exists o,
    In o (unique_opps (collect sample_strptime dup_world)) /\
    url o = "https://x/1" /\
    source o = "College Confidential" /\
    hd_error (collect sample_strptime dup_world) =
      Some (mk_opp "Google News" "Basketball Coach Vacancy" "https://x/1"
                   "📰 Job Vacancy" industry) /\
    map payload_opps (payloads (main sample_strptime dup_world None)) = [[o]].
Proof.
  eexists. vm_compute. split; [left; reflexivity|].
  repeat split; reflexivity.
Qed.

(** C1 (amended): the deduplicated list holds, for each URL, the LAST
    opportunity with that URL in source-processing order, placed where the
    URL first occurred. *)
Theorem dedup_keeps_last_at_first_position (found_opps : list opp) :
  map Some (unique_opps found_opps) =
  map (fun u => last_with u found_opps) (first_urls found_opps).
Proof.
  unfold unique_opps.
  rewrite values_by_lookup by (rewrite url_dict_keys; apply first_urls_NoDup).
  rewrite url_dict_keys. apply map_ext. intros u. apply url_dict_lookup.
Qed.

(** ** C6: distinct URLs *)

(** C6: the opportunities of every emitted summary have pairwise distinct
    URLs. *)
Theorem summary_urls_distinct strptime w hook p :
  In p (payloads (main strptime w hook)) ->
  NoDup (map url (payload_opps p)).
Proof.
  intros Hp. apply payloads_send in Hp as [_ ->].
  rewrite payload_opps_sections, <- firstn_map, unique_opps_urls.
  apply firstn_NoDup, first_urls_NoDup.
Qed.

Lemma summary_urls_distinct_witness :
  In (hd [] (payloads (main sample_strptime order_world None)))
     (payloads (main sample_strptime order_world None)) /\
  NoDup (map url (payload_opps (hd [] (payloads (main sample_strptime order_world None))))).
Proof.
  split.
  - vm_compute. left. reflexivity.
  - apply (summary_urls_distinct sample_strptime order_world None).
    vm_compute. left. reflexivity.
Defined.

(** ** C3: output order *)

(** C3 (as stated): the output is not ordered by category priority.  In
    [order_world] a job, a partner and a wealth item are found in that order;
    the summary lists them in that order, the spec's ranking the other way
    round. *)
Lemma output_sorted_by_priority_counterexample :
  map (map type) (map payload_opps (payloads (main sample_strptime order_world None)))
    = [[industry; partner; wealth]] /\
  map type (spec_ranked (unique_opps (collect sample_strptime order_world)))
    = [wealth; partner; industry].
Proof. split; vm_compute; reflexivity. Qed.

(** C3 (amended): the summary lists the URLs in the order of their first
    occurrence in the collected list (no sorting), truncated to 15. *)
Theorem output_in_first_discovery_order strptime w hook p :
  In p (payloads (main strptime w hook)) ->
  map url (payload_opps p) = firstn 15 (first_urls (collect strptime w)).
Proof.
  intros Hp. apply payloads_send in Hp as [_ ->].
  rewrite payload_opps_sections, <- firstn_map, unique_opps_urls. reflexivity.
Qed.

Lemma output_in_first_discovery_order_witness :
  map url (payload_opps (hd [] (payloads (main sample_strptime order_world None))))
    = ["https://x/1"; "https://x/2"; "https://x/3"].
Proof.
  rewrite (output_in_first_discovery_order sample_strptime order_world None).
  - vm_compute. reflexivity.
  - vm_compute. left. reflexivity.
Defined.

(** ** C7: truncation *)

(** C7 (as stated): the body is not the top 15 of the ranked order.  In
    [big_world] seventeen distinct items are found, the wealth item
    ["https://x/z"] last; the spec's ranking puts it first, the body drops
    it. *)
Lemma truncation_top15_ranked_counterexample :
  length (unique_opps (collect sample_strptime big_world)) = 17 /\
  hd_error (map url (spec_ranked (unique_opps (collect sample_strptime big_world))))
    = Some "https://x/z" /\
  ~ In "https://x/z"
      (concat (map (map url)
        (map payload_opps (payloads (main sample_strptime big_world None))))).
Proof.
  split; [vm_compute; reflexivity|]. split; [vm_compute; reflexivity|].
  vm_compute. intros H. repeat (destruct H as [H|H]; [discriminate H|]). exact H.
Qed.

(** C7 (amended): with more than 15 unique opportunities the payload is the
    header with the full unique count, a divider, and exactly the first 15
    unique opportunities in deduplicated order. *)
Theorem truncation_first15_header_total strptime w hook p :
  15 < length (unique_opps (collect strptime w)) ->
  In p (payloads (main strptime w hook)) ->
  p = (HeaderBlock (length (unique_opps (collect strptime w))) :: Divider ::
       map section_of (firstn 15 (unique_opps (collect strptime w))))%list /\
  length (payload_opps p) = 15.
Proof.
  intros Hlen Hp. apply payloads_send in Hp as [_ ->]. split; [reflexivity|].
  rewrite payload_opps_sections, length_firstn. lia.
Qed.

Lemma truncation_first15_header_total_witness :
  length (payload_opps (hd [] (payloads (main sample_strptime big_world None)))) = 15.
Proof.
  apply (truncation_first15_header_total sample_strptime big_world None).
  - vm_compute. lia.
  - vm_compute. left. reflexivity.
Defined.

(** ** C8: the empty run *)

(** C8: when nothing is collected, [send_slack_alert] only prints the fixed
    line "No opportunities found today."; no summary is built. *)
Theorem empty_run_heartbeat strptime w hook :
  collect strptime w = [] ->
  main strptime w hook = [Print heartbeat] /\
  payloads (main strptime w hook) = [].
Proof. unfold main. intros ->. split; reflexivity. Qed.

Lemma empty_run_heartbeat_witness :
  main sample_strptime quiet_world (Some "https://hooks.example/x") = [Print heartbeat].
Proof. apply empty_run_heartbeat. vm_compute. reflexivity. Defined.

(** ** HoopDirt dates: C2 and C5 *)

Lemma hoopdirt_entry_date_fails strptime now e :
  hd_date_fails strptime e = true -> hoopdirt_entry strptime now e = (None, []).
Proof.
  unfold hd_date_fails, hoopdirt_entry.
  destruct (en_published e) as [s|]; simpl; [|reflexivity].
  destruct (strptime s); simpl; [discriminate|reflexivity].
Qed.

Lemma written_get_hoopdirt_news strptime now es :
  written (get_hoopdirt_news strptime now (Some es)) =
  written (for_ es (hoopdirt_entry strptime now)).
Proof.
  unfold get_hoopdirt_news, try_except, written. simpl.
  destruct (for_ es (hoopdirt_entry strptime now)); reflexivity.
Qed.

(** C2 (as stated): a HoopDirt entry without a date is not passed through,
    and it takes its later sibling with it: from the feed [undated; fresh]
    the HoopDirt source contributes nothing. *)
Lemma undated_entry_fails_open_counterexample :
  hd_date_fails sample_strptime (hd hd_empty_entry hd_feed_undated_then_fresh) = true /\
  written (hoopdirt_entry sample_strptime hd_now
             (last hd_feed_undated_then_fresh hd_empty_entry)) <> [] /\
  written (get_hoopdirt_news sample_strptime hd_now (Some hd_feed_undated_then_fresh)) = [].
Proof. split; [|split]; vm_compute; [reflexivity | discriminate | reflexivity]. Qed.

(** C2 (amended): HoopDirt does not fail open.  An entry whose publish date
    is absent or does not parse raises inside the source's [try]: the
    HoopDirt source contributes exactly what the entries before it
    contributed; the entry and every later one are dropped. *)
Theorem undated_entry_ends_hoopdirt strptime now pre e post :
  hd_date_fails strptime e = true ->
  written (get_hoopdirt_news strptime now (Some (pre ++ e :: post)%list)) =
  written (get_hoopdirt_news strptime now (Some pre)).
Proof.
  intros He. rewrite !written_get_hoopdirt_news.
  pose proof (hoopdirt_entry_date_fails strptime now e He) as Hent.
  rewrite for_raise_stops by (rewrite Hent; reflexivity).
  apply for_raise_silent, Hent.
Qed.

Lemma undated_entry_ends_hoopdirt_witness :
  written (get_hoopdirt_news sample_strptime hd_now (Some hd_feed_fresh_then_undated)) =
  written (get_hoopdirt_news sample_strptime hd_now
             (Some [mk_entry (Some "Coach hired") (Some "https://x/1") (Some hd_date)])).
Proof.
  apply (undated_entry_ends_hoopdirt sample_strptime hd_now
           [mk_entry (Some "Coach hired") (Some "https://x/1") (Some hd_date)]
           (mk_entry (Some "Coach fired") (Some "https://x/2") None) []).
  vm_compute. reflexivity.
Defined.

(** C5: a HoopDirt entry with a parsed date is kept exactly when its age
    [now - published] is at most the 24-hour window. *)
Theorem hoopdirt_window_inclusive strptime now e s published t l :
  en_published e = Some s ->
  strptime s = Some published ->
  en_title e = Some t ->
  en_link e = Some l ->
  hoopdirt_entry strptime now e =
  (Some tt,
   if (now - published <=? hoopdirt_window)%Z
   then [mk_opp "HoopDirt" t l "🏀 Coaching Move / Industry Rumor" industry]
   else []).
Proof.
  intros Hp Hs Ht Hl. unfold hoopdirt_entry.
  rewrite Hp. simpl. rewrite Hs. simpl.
  rewrite Z.gtb_ltb, Z.ltb_antisym.
  destruct (now - published <=? hoopdirt_window)%Z; simpl; [|reflexivity].
  rewrite Ht, Hl. reflexivity.
Qed.

(** At exactly 24 hours the entry is kept, one second later it is not. *)
Lemma hoopdirt_window_inclusive_witness :
  let e := mk_entry (Some "Coach hired") (Some "https://x/1") (Some hd_date) in
  let t0 := 1791194400000000%Z in
  hoopdirt_entry sample_strptime (t0 + hoopdirt_window)%Z e =
    (Some tt, [mk_opp "HoopDirt" "Coach hired" "https://x/1"
                      "🏀 Coaching Move / Industry Rumor" industry]) /\
  hoopdirt_entry sample_strptime (t0 + hoopdirt_window + 1000000)%Z e = (Some tt, []).
Proof.
  split.
  - rewrite (hoopdirt_window_inclusive sample_strptime _ _ hd_date 1791194400000000%Z
               "Coach hired" "https://x/1") by reflexivity.
    vm_compute. reflexivity.
  - rewrite (hoopdirt_window_inclusive sample_strptime _ _ hd_date 1791194400000000%Z
               "Coach hired" "https://x/1") by reflexivity.
    vm_compute. reflexivity.
Defined.

(** ** C9: isolation of failing sources *)









(** ** C4: classification precedence in the Reddit source *)

(** C4: a parent post is classified by the first rule of [reddit_rules]
    (wealth, then pain) whose keywords it contains; a post with both wealth
    and pain keywords becomes a wealth opportunity. *)
Theorem reddit_first_rule_wins sub p t pl :
  rp_title p = Some t ->
  rp_permalink p = Some pl ->
  existsb (fun k => contains k (full_text_of t p)) parent_markers = true ->
  reddit_post_step sub p =
    (Some tt,
     match spec_first_match reddit_rules (full_text_of t p) with
     | Some (label, ty) =>
         [mk_opp ("Reddit (r/" ++ sub ++ ")") t ("https://www.reddit.com" ++ pl) label ty]
     | None => []
     end) /\
  (is_relevant (full_text_of t p) WEALTH_KEYWORDS = true ->
   is_relevant (full_text_of t p) PAIN_KEYWORDS = true ->
   written (reddit_post_step sub p) =
     [mk_opp ("Reddit (r/" ++ sub ++ ")") t ("https://www.reddit.com" ++ pl)
             "💰 Investment/Advisory Question" wealth]).
Proof.
  intros Ht Hpl Hpar.
  assert (Hstep : reddit_post_step sub p =
    (Some tt,
     match spec_first_match reddit_rules (full_text_of t p) with
     | Some (label, ty) =>
         [mk_opp ("Reddit (r/" ++ sub ++ ")") t ("https://www.reddit.com" ++ pl) label ty]
     | None => []
     end)).
  { unfold reddit_post_step. rewrite Ht. cbn [attr bind ret]. rewrite Hpar.
    unfold spec_first_match, reddit_rules.
    destruct (is_relevant (full_text_of t p) WEALTH_KEYWORDS);
      [|destruct (is_relevant (full_text_of t p) PAIN_KEYWORDS)];
      cbn [attr bind ret]; rewrite ?Ht, ?Hpl; reflexivity. }
  split; [exact Hstep|]. intros Hw _.
  rewrite Hstep. unfold spec_first_match, reddit_rules. rewrite Hw. reflexivity.
Qed.

Lemma reddit_first_rule_wins_witness :
  written (reddit_post_step "YouthSports" both_post) =
    [mk_opp "Reddit (r/YouthSports)" "My son lost his confidence"
            "https://www.reddit.com/r/YouthSports/1"
            "💰 Investment/Advisory Question" wealth] /\
  is_relevant (full_text_of "My son lost his confidence" both_post) PAIN_KEYWORDS = true.
Proof.
  split; [|vm_compute; reflexivity].
  apply (reddit_first_rule_wins "YouthSports" both_post "My son lost his confidence"
           "/r/YouthSports/1"); vm_compute; reflexivity.
Defined.

(** ** C10: only HoopDirt looks at dates *)

(** C10: the Google News, NCAA Market, College Confidential and Reddit
    sources do not depend on the publish dates of what they fetch (nor on
    the clock): re-dating every entry or post changes nothing. *)
Theorem other_sources_ignore_dates (dates : entry -> option string)
  (times : reddit_post -> option Z) fetch_g ncaa cc fetch_r :
  get_google_alerts
    (fun q => option_map (map (fun e => restamp (dates e) e)) (fetch_g q)) =
    get_google_alerts fetch_g /\
  get_ncaa_market (option_map (map (fun e => restamp (dates e) e)) ncaa) =
    get_ncaa_market ncaa /\
  get_college_confidential (option_map (map (fun e => restamp (dates e) e)) cc) =
    get_college_confidential cc /\
  get_reddit_monitor
    (fun s => option_map (map (fun p => restamp_post (times p) p)) (fetch_r s)) =
    get_reddit_monitor fetch_r.
Proof.
  split; [|split; [|split]].
  - unfold get_google_alerts. apply for_ext. intros [[q s] ty].
    destruct (fetch_g q) as [es|]; cbn [option_map attr bind ret]; [|reflexivity].
    rewrite firstn_map, for_map. reflexivity.
  - destruct ncaa as [es|]; simpl; [|reflexivity].
    unfold get_ncaa_market. simpl. rewrite for_map. reflexivity.
  - destruct cc as [es|]; simpl; [|reflexivity].
    unfold get_college_confidential. cbn [attr bind ret].
    rewrite firstn_map, for_map. reflexivity.
  - unfold get_reddit_monitor. apply for_ext. intros sub.
    destruct (fetch_r sub) as [ps|]; simpl; [|reflexivity].
    rewrite for_map. reflexivity.
Qed.

(** ** Further properties of the code *)

Lemma in_written_bind {A B} (m : py A) (k : A -> py B) o :
  In o (written (bind m k)) ->
  In o (written m) \/ exists a, fst m = Some a /\ In o (written (k a)).
Proof.
  rewrite written_bind. destruct (fst m) as [a|]; [|tauto].
  intros H. apply in_app_or in H as [H|H]; [left; exact H|right; eauto].
Qed.


Lemma in_written_for {X} (xs : list X) f o :
  In o (written (for_ xs f)) -> exists x, In x xs /\ In o (written (f x)).
Proof.
  induction xs as [|x xs IH]; simpl; [tauto|].
  intros H. apply in_written_bind in H as [H|[_ [_ H]]].
  - exists x. auto.
  - destruct (IH H) as [y [Hy Ho]]. exists y. auto.
Qed.

Lemma length_written_for {X} (xs : list X) f :
  (forall x, In x xs -> length (written (f x)) <= 1) ->
  length (written (for_ xs f)) <= length xs.
Proof.
  induction xs as [|x xs IH]; simpl; intros Hf; [lia|].
  rewrite written_bind. destruct (fst (f x)).
  - rewrite length_app. specialize (IH (fun y Hy => Hf y (or_intror Hy))).
    specialize (Hf x (or_introl eq_refl)). lia.
  - specialize (Hf x (or_introl eq_refl)). lia.
Qed.

Lemma lower_ascii_idem c : lower_ascii (lower_ascii c) = lower_ascii c.
Proof. destruct c as [[] [] [] [] [] [] [] []]; reflexivity. Qed.

Lemma lower_idem s : lower (lower s) = lower s.
Proof. induction s as [|c s IH]; simpl; [reflexivity|]. rewrite lower_ascii_idem, IH. reflexivity. Qed.

(** [is_relevant] is case-insensitive on both sides: lowering the text or
    the keywords first does not change its answer. *)
Theorem is_relevant_case_insensitive text keyword_list :
  is_relevant (lower text) keyword_list = is_relevant text keyword_list /\
  is_relevant text (map lower keyword_list) = is_relevant text keyword_list.
Proof.
  split; destruct text as [|c s]; try reflexivity; unfold is_relevant.
  - simpl lower at 1. rewrite lower_idem. reflexivity.
  - generalize (lower (String c s)) as T. intros T.
    induction keyword_list as [|k ks IH]; simpl; [reflexivity|].
    rewrite lower_idem, IH. reflexivity.
Qed.

(** Every opportunity HoopDirt writes comes from an entry of its feed whose
    date parsed and is at most 24 hours old, with the entry's title and
    link, labelled HoopDirt/industry. *)
Theorem hoopdirt_outputs_fresh strptime now es o :
  In o (written (get_hoopdirt_news strptime now (Some es))) ->
  exists e s p,
    In e es /\ en_published e = Some s /\ strptime s = Some p /\
    (now - p <= hoopdirt_window)%Z /\
    en_title e = Some (title o) /\ en_link e = Some (url o) /\
    source o = "HoopDirt" /\ type o = industry.
Proof.
  rewrite written_get_hoopdirt_news. intros H.
  apply in_written_for in H as [e [He H]].
  unfold hoopdirt_entry in H.
  destruct (en_published e) as [s|] eqn:Es; simpl in H; [|contradiction].
  destruct (strptime s) as [p|] eqn:Ep; simpl in H; [|contradiction].
  destruct (now - p >? hoopdirt_window)%Z eqn:Eg; simpl in H; [contradiction|].
  destruct (en_title e) as [t|] eqn:Et; simpl in H; [|contradiction].
  destruct (en_link e) as [l|] eqn:El; simpl in H; [|contradiction].
  destruct H as [<-|[]].
  exists e, s, p. simpl. repeat split; auto.
  rewrite Z.gtb_ltb in Eg. apply Z.ltb_ge in Eg. exact Eg.
Qed.

Lemma hoopdirt_outputs_fresh_witness :
  exists e s p,
    In e hd_feed_fresh_then_undated /\ en_published e = Some s /\
    sample_strptime s = Some p /\ (hd_now - p <= hoopdirt_window)%Z /\
    en_title e = Some "Coach hired" /\ en_link e = Some "https://x/1" /\
    "HoopDirt" = "HoopDirt" /\ industry = industry.
Proof.
  apply (hoopdirt_outputs_fresh sample_strptime hd_now hd_feed_fresh_then_undated
           (mk_opp "HoopDirt" "Coach hired" "https://x/1"
                   "🏀 Coaching Move / Industry Rumor" industry)).
  vm_compute. left. reflexivity.
Defined.

Lemma fst_attr {A} (x : option A) a : fst (attr x) = Some a -> x = Some a.
Proof. destruct x; simpl; congruence. Qed.

Lemma in_written_try_attr {A} (x : option A) (k : A -> py unit) o :
  In o (written (try_except (a <- attr x ;; k a))) ->
  exists v, x = Some v /\ In o (written (k v)).
Proof.
  destruct x as [v|]; [rewrite written_try_attr_some; eauto|simpl; tauto].
Qed.

Lemma length_written_for_k {X} (xs : list X) f k :
  (forall x, In x xs -> length (written (f x)) <= k) ->
  length (written (for_ xs f)) <= k * length xs.
Proof.
  induction xs as [|x xs IH]; simpl; intros Hf; [lia|].
  rewrite written_bind. destruct (fst (f x)).
  - rewrite length_app. specialize (IH (fun y Hy => Hf y (or_intror Hy))).
    specialize (Hf x (or_introl eq_refl)). lia.
  - specialize (Hf x (or_introl eq_refl)). lia.
Qed.

Lemma length_written_try_attr {A} (x : option A) (k : A -> py unit) n :
  (forall v, x = Some v -> length (written (k v)) <= n) ->
  length (written (try_except (a <- attr x ;; k a))) <= n.
Proof.
  destruct x as [v|]; intros H; [rewrite written_try_attr_some; auto|simpl; lia].
Qed.

(** Every NCAA Market opportunity comes from a feed entry whose title,
    lowercased, contains "basketball" or "development"; it carries that
    entry's title and link and is labelled NCAA Market/industry. *)
Theorem ncaa_outputs_filtered es o :
  In o (written (get_ncaa_market (Some es))) ->
  exists e,
    In e es /\ en_title e = Some (title o) /\ en_link e = Some (url o) /\
    (contains "basketball" (lower (title o)) ||
     contains "development" (lower (title o))) = true /\
    source o = "NCAA Market" /\ type o = industry.
Proof.
  unfold get_ncaa_market. rewrite written_try_attr_some. intros H.
  apply in_written_for in H as [e [He H]].
  destruct (en_title e) as [t|] eqn:Et; simpl in H; [|contradiction].
  destruct (contains "basketball" (lower t) || contains "development" (lower t)) eqn:Ec;
    simpl in H; [|contradiction].
  destruct (en_link e) as [l|] eqn:El; simpl in H; [|contradiction].
  destruct H as [<-|[]]. exists e. cbn [title url source type]. repeat split; auto.
Qed.

Lemma ncaa_outputs_filtered_witness :
  exists e,
    In e (lettered "Women's Basketball assistant" 65 1) /\
    en_title e = Some "Women's Basketball assistant" /\ en_link e = Some "https://x/A" /\
    (contains "basketball" (lower "Women's Basketball assistant") ||
     contains "development" (lower "Women's Basketball assistant")) = true /\
    "NCAA Market" = "NCAA Market" /\ industry = industry.
Proof.
  apply (ncaa_outputs_filtered (lettered "Women's Basketball assistant" 65 1)
           (mk_opp "NCAA Market" "Women's Basketball assistant" "https://x/A"
                   "🎓 Collegiate Role" industry)).
  vm_compute. left. reflexivity.
Defined.



(** College Confidential takes at most ten threads, and threads after the
    tenth never affect it. *)
Theorem college_confidential_top10 feed :
  length (written (get_college_confidential feed)) <= 10 /\
  get_college_confidential (option_map (firstn 10) feed) = get_college_confidential feed.
Proof.
  split.
  - unfold get_college_confidential. apply length_written_try_attr. intros es _.
    eapply Nat.le_trans; [apply length_written_for|].
    + intros e _. destruct (en_title e), (en_link e); simpl; lia.
    + rewrite length_firstn. lia.
  - destruct feed as [es|]; cbn [option_map]; [|reflexivity].
    unfold get_college_confidential. cbn [attr ret bind].
    rewrite firstn_firstn. reflexivity.
Qed.

(** Every Reddit opportunity comes from a post of one of the four
    subreddits whose text names a child; it is wealth when the text has a
    wealth keyword, and pain only when it has a pain keyword and no wealth
    keyword; its URL is the post's permalink on www.reddit.com. *)
Theorem reddit_outputs_classified fetch o :
  In o (written (get_reddit_monitor fetch)) ->
  exists sub ps p pl,
    In sub subreddits /\ fetch sub = Some ps /\ In p ps /\
    rp_title p = Some (title o) /\ rp_permalink p = Some pl /\
    url o = ("https://www.reddit.com" ++ pl) /\
    source o = ("Reddit (r/" ++ sub ++ ")") /\
    existsb (fun k => contains k (full_text_of (title o) p)) parent_markers = true /\
    ((type o = wealth /\ is_relevant (full_text_of (title o) p) WEALTH_KEYWORDS = true) \/
     (type o = pain /\ is_relevant (full_text_of (title o) p) WEALTH_KEYWORDS = false /\
      is_relevant (full_text_of (title o) p) PAIN_KEYWORDS = true)).
Proof.
  unfold get_reddit_monitor. intros H.
  apply in_written_for in H as [sub [Hsub H]].
  apply in_written_try_attr in H as [ps [Hps H]].
  apply in_written_for in H as [p [Hp H]].
  unfold reddit_post_step in H.
  destruct (rp_title p) as [t|] eqn:Et; cbn [attr bind ret written snd fst] in H;
    [|contradiction].
  destruct (existsb (fun k => contains k (full_text_of t p)) parent_markers) eqn:Epar;
    [|contradiction].
  destruct (is_relevant (full_text_of t p) WEALTH_KEYWORDS) eqn:Ew;
    [|destruct (is_relevant (full_text_of t p) PAIN_KEYWORDS) eqn:Ep; [|contradiction]];
    destruct (rp_permalink p) as [pl|] eqn:Epl; cbn [attr bind ret written snd fst] in H;
    try contradiction;
    destruct H as [<-|[]]; exists sub, ps, p, pl; cbn [title url source type];
    repeat split; auto.
Qed.

Lemma reddit_outputs_classified_witness :
  exists sub ps p pl,
    In sub subreddits /\ (fun s => if String.eqb s "YouthSports" then Some [both_post] else None) sub = Some ps /\
    In p ps /\
    rp_title p = Some "My son lost his confidence" /\ rp_permalink p = Some pl /\
    "https://www.reddit.com/r/YouthSports/1" = ("https://www.reddit.com" ++ pl) /\
    "Reddit (r/YouthSports)" = ("Reddit (r/" ++ sub ++ ")") /\
    existsb (fun k => contains k (full_text_of "My son lost his confidence" p)) parent_markers = true /\
    ((wealth = wealth /\ is_relevant (full_text_of "My son lost his confidence" p) WEALTH_KEYWORDS = true) \/
     (wealth = pain /\ is_relevant (full_text_of "My son lost his confidence" p) WEALTH_KEYWORDS = false /\
      is_relevant (full_text_of "My son lost his confidence" p) PAIN_KEYWORDS = true)).
Proof.
  apply (reddit_outputs_classified
           (fun s => if String.eqb s "YouthSports" then Some [both_post] else None)
           (mk_opp "Reddit (r/YouthSports)" "My son lost his confidence"
                   "https://www.reddit.com/r/YouthSports/1"
                   "💰 Investment/Advisory Question" wealth)).
  vm_compute. left. reflexivity.
Defined.

Lemma dict_set_fresh k v d :
  ~ In k (map fst d) -> dict_set k v d = (d ++ [(k, v)])%list.
Proof.
  induction d as [|[k0 v0] d IH]; simpl; intros Hn; [reflexivity|].
  destruct (String.eqb_spec k k0) as [->|]; [tauto|].
  rewrite IH by tauto. reflexivity.
Qed.

Lemma url_dict_fold_fresh l d :
  NoDup (map url l) ->
  (forall o, In o l -> ~ In (url o) (map fst d)) ->
  fold_left (fun d o => dict_set (url o) o d) l d =
  (d ++ map (fun o => (url o, o)) l)%list.
Proof.
  revert d. induction l as [|o l IH]; intros d Hnd Hfresh; simpl; [now rewrite app_nil_r|].
  inversion Hnd as [|? ? Hnin Hnd']; subst.
  rewrite dict_set_fresh by (apply Hfresh; left; reflexivity).
  rewrite IH; [rewrite <- app_assoc; reflexivity|exact Hnd'|].
  intros o' Ho'. rewrite map_app, in_app_iff. simpl. intros [H|[H|[]]].
  - apply (Hfresh o' (or_intror Ho') H).
  - apply Hnin. rewrite H. apply in_map, Ho'.
Qed.

(** Deduplication leaves a list whose URLs are already distinct unchanged;
    in particular deduplicating twice is the same as once. *)
Theorem unique_opps_idempotent l :
  (NoDup (map url l) -> unique_opps l = l) /\
  unique_opps (unique_opps l) = unique_opps l.
Proof.
  assert (Hfix : forall l, NoDup (map url l) -> unique_opps l = l).
  { intros l' Hnd. unfold unique_opps, url_dict.
    rewrite url_dict_fold_fresh by (simpl; auto).
    simpl. rewrite map_map. apply map_id. }
  split; [apply Hfix|]. apply Hfix.
  rewrite unique_opps_urls. apply first_urls_NoDup.
Qed.

Lemma first_urls_In l u : In u (first_urls l) <-> In u (map url l).
Proof.
  induction l as [|o l IH]; simpl; [tauto|].
  rewrite filter_In, IH.
  destruct (String.eqb_spec u (url o)); simpl; intuition congruence.
Qed.

Lemma dict_set_values k v d x :
  In x (map snd (dict_set k v d)) -> x = v \/ In x (map snd d).
Proof.
  induction d as [|[k0 v0] d IH]; simpl; [intuition|].
  destruct (String.eqb k k0); simpl; intuition.
Qed.

Lemma url_dict_fold_values l d x :
  In x (map snd (fold_left (fun d o => dict_set (url o) o d) l d)) ->
  In x (map snd d) \/ In x l.
Proof.
  revert d. induction l as [|o l IH]; intros d H; simpl in *; [auto|].
  apply IH in H as [H|H]; [|auto].
  apply dict_set_values in H as [->|H]; auto.
Qed.

(** Deduplication invents nothing and loses no URL: every kept opportunity
    is one of the collected ones, and the kept URLs are exactly the
    collected URLs. *)
Theorem unique_opps_same_urls l :
  (forall o, In o (unique_opps l) -> In o l) /\
  (forall u, In u (map url (unique_opps l)) <-> In u (map url l)).
Proof.
  split.
  - intros o H. apply url_dict_fold_values in H as [[]|H]. exact H.
  - intros u. rewrite unique_opps_urls. apply first_urls_In.
Qed.

(** A payload always starts with a header carrying the number of distinct
    URLs collected, which is never zero, then a divider, then one section
    block for each of min(15, that number) opportunities. *)
Theorem payload_header_count hook found p :
  In p (payloads (send_slack_alert hook found)) ->
  exists n os,
    p = (HeaderBlock n :: Divider :: map section_of os)%list /\
    n = length (first_urls found) /\ 0 < n /\ length os = Nat.min 15 n.
Proof.
  intros H. apply payloads_send in H as [Hne ->].
  assert (Hn : length (unique_opps found) = length (first_urls found))
    by (rewrite <- unique_opps_urls, length_map; reflexivity).
  exists (length (unique_opps found)), (firstn 15 (unique_opps found)).
  repeat split.
  - exact Hn.
  - rewrite Hn. destruct found as [|o l]; [contradiction|simpl; lia].
  - rewrite length_firstn. reflexivity.
Qed.

Lemma payload_header_count_witness :
  exists n os,
    hd [] (payloads (send_slack_alert None (collect sample_strptime big_world))) =
      (HeaderBlock n :: Divider :: map section_of os)%list /\
    n = length (first_urls (collect sample_strptime big_world)) /\ 0 < n /\
    length os = Nat.min 15 n.
Proof.
  apply (payload_header_count None (collect sample_strptime big_world)).
  vm_compute. left. reflexivity.
Defined.

(** The payload is emitted at most once, and not at all when nothing was
    collected; it is posted only to a configured, non-empty webhook, and
    printed as JSON only when the webhook is unset or empty. *)
Theorem payload_delivered_once hook found :
  length (payloads (send_slack_alert hook found)) =
    match found with [] => 0 | _ => 1 end /\
  (forall h p, In (Post h p) (send_slack_alert hook found) -> hook = Some h /\ h <> "") /\
  (forall p, In (PrintJson p) (send_slack_alert hook found) ->
     hook = None \/ hook = Some "").
Proof.
  unfold send_slack_alert.
  destruct found as [|o l]; [simpl; repeat split; intros; intuition discriminate|].
  destruct hook as [[|c h]|]; simpl; repeat split; intros; intuition congruence.
Qed.
